(** * Timing utilities: [time_execution] and [timer]

    A shallow embedding of [Instructor/utils/timing.py].

    The module reads a monotonic clock ([time.perf_counter]), calls the
    wrapped function or runs the bracketed block, and either returns the
    elapsed milliseconds next to the result (the decorator) or prints them
    (the context manager).

    Python code is embedded as a tree of events (clock read, print, call,
    yield) with an exception constructor; an interpreter runs such a tree
    against a world made of a clock and standard output, and records the
    events it performed.  Floating-point numbers are IEEE 754 binary64
    values, taken from the specification of the operations in
    [SpecFloat]. *)

From Stdlib Require Import ZArith List String Ascii Bool Lia.
From Stdlib Require Import Floats.SpecFloat.
From Stdlib Require Import DecimalString.
Import ListNotations.

#[local] Set Warnings "-register-all".

Local Open Scope string_scope.
Local Open Scope list_scope.

(** ** Binary64 floating point *)

Definition float : Type := spec_float.

Module F64.

Definition prec : Z := 53.
Definition emax : Z := 1024.

Definition sub (x y : float) : float := SFsub prec emax x y.
Definition mul (x y : float) : float := SFmul prec emax x y.
Definition leb (x y : float) : bool := SFleb x y.

(** The conversion of a Python [int] to a [float]. *)
Definition of_Z (n : Z) : float := binary_normalize prec emax n 0 false.

Definition zero : float := S754_zero false.

(** A float as the hardware has it: a canonical mantissa and exponent. *)
Definition valid (x : float) : bool := valid_binary prec emax x.

(** Neither an infinity nor a NaN. *)
Definition is_finite (x : float) : bool :=
  match x with
  | S754_zero _ | S754_finite _ _ _ => true
  | S754_infinity _ | S754_nan => false
  end.

(** [x >= 0], as Python's comparison of floats has it. *)
Definition nonneg (x : float) : bool := leb zero x.

(** A value that a clock can return: a finite double. *)
Definition is_double (x : float) : bool := valid x && is_finite x.

(** The result of a rounding with the sign bit clear. *)
Definition positive_result (x : float) : Prop :=
  match x with
  | S754_zero s => s = false
  | S754_infinity s => s = false
  | S754_finite s _ _ => s = false
  | S754_nan => False
  end.

(** The signed mantissa of a finite float, shifted to the exponent [ez]. *)
Definition aligned (s : bool) (m : positive) (e ez : Z) : Z :=
  cond_Zopp s (Zpos (fst (shl_align m e ez))).

End F64.

(** ** The format specification [.2f] *)

Module Format.

Local Open Scope Z_scope.

Definition sign_prefix (s : bool) : string := if s then "-" else "".

Definition decimal (n : Z) : string :=
  NilZero.string_of_uint (N.to_uint (Z.to_N n)).

Definition digit (n : Z) : ascii := ascii_of_N (48 + Z.to_N n).

Definition two_digits (n : Z) : string :=
  String (digit (n / 10)) (String (digit (n mod 10)) EmptyString).

(** [m * 2^e * 100] rounded to the nearest integer, ties to even: the
    conversion is correctly rounded on the exact binary value. *)
Definition hundredths (m : positive) (e : Z) : Z :=
  match e with
  | Zneg p =>
      let d := 2 ^ Zpos p in
      let n := Zpos m * 100 in
      let q := n / d in
      let r := n mod d in
      match 2 * r ?= d with
      | Lt => q
      | Gt => q + 1
      | Eq => if Z.even q then q else q + 1
      end
  | _ => Zpos m * 2 ^ e * 100
  end.

(** [format(x, ".2f")]. *)
Definition format_2f (x : float) : string :=
  match x with
  | S754_nan => "nan"
  | S754_infinity s => sign_prefix s ++ "inf"
  | S754_zero s => sign_prefix s ++ "0.00"
  | S754_finite s m e =>
      let h := hundredths m e in
      sign_prefix s ++ decimal (h / 100) ++ "." ++ two_digits (h mod 100)
  end.

End Format.

(** ** Python values, exceptions and outcomes *)

Inductive PyVal : Type :=
| VNone
| VBool (b : bool)
| VInt (n : Z)
| VFloat (x : float)
| VStr (s : string)
| VTuple (items : list PyVal).

Record Exn : Type := mkExn { exn_type : string; exn_args : list PyVal }.

(** Keyword arguments, in the order they were passed. *)
Definition Kwargs : Type := list (string * PyVal).

Inductive Outcome (A : Type) : Type :=
| Returned (a : A)
| Raised (e : Exn).
Arguments Returned {A} a.
Arguments Raised {A} e.

(** ** The world: a clock and standard output *)

(** [clock n] is the timestamp that the [n]-th read of the clock returns;
    [stdout] holds what each [print] call wrote, oldest first. *)
Record World : Type := mkWorld {
  clock : nat -> float;
  reads : nat;
  stdout : list string
}.

Definition now (w : World) : float := clock w (reads w).

Definition tick (w : World) : World :=
  {| clock := clock w; reads := S (reads w); stdout := stdout w |}.

Definition emit (line : string) (w : World) : World :=
  {| clock := clock w; reads := reads w; stdout := stdout w ++ [line] |}.

(** A callable: the attributes [functools.wraps] copies, and the behaviour
    of a call, which may read the clock, print, return or raise.  A
    function has a [__name__] and a [__qualname__]; a [functools.partial]
    object or an instance of a class with [__call__] has neither ([None]
    here).  Every object has a [__doc__], which may be [None]. *)
Record Callable : Type := mkCallable {
  fn_name : option string;
  fn_qualname : option string;
  fn_doc : option string;
  fn_body : list PyVal -> Kwargs -> World -> Outcome PyVal * World
}.

(** ** Programs as event trees *)

Inductive pyE : Type -> Type :=
| PerfCounter : pyE float
| Print (line : string) : pyE unit
| Call (f : Callable) (args : list PyVal) (kwargs : Kwargs) : pyE PyVal.

(** What a suspended generator is resumed with: a value ([next], [send])
    or an exception ([throw]). *)
Inductive Resume : Type :=
| Sent (v : PyVal)
| Thrown (e : Exn).

Inductive genE : Type -> Type :=
| Eff {X : Type} (e : pyE X) : genE X
| Yield (v : PyVal) : genE Resume.

Inductive Prog (E : Type -> Type) (R : Type) : Type :=
| Ret (r : R)
| Raise (e : Exn)
| Vis {X : Type} (ev : E X) (k : X -> Prog E R).
Arguments Ret {E R} r.
Arguments Raise {E R} e.
Arguments Vis {E R X} ev k.

Fixpoint bind {E : Type -> Type} {A B : Type}
  (p : Prog E A) (f : A -> Prog E B) : Prog E B :=
  match p with
  | Ret a => f a
  | Raise e => Raise e
  | Vis ev k => Vis ev (fun x => bind (k x) f)
  end.

Declare Scope py_scope.
Delimit Scope py_scope with py.
Notation "x <- c ;; k" := (bind c (fun x => k))
  (at level 61, c at next level, right associativity) : py_scope.
Notation "c ;;; k" := (bind c (fun _ => k))
  (at level 61, right associativity) : py_scope.
Local Open Scope py_scope.

Definition trigger {E : Type -> Type} {X : Type} (ev : E X) : Prog E X :=
  Vis ev (fun x => Ret x).

(** The events a run performed, with the answer each one got. *)
Inductive Obs : Type :=
| OClock (t : float)
| OPrint (line : string)
| OCall (f : Callable) (args : list PyVal) (kwargs : Kwargs)
        (res : Outcome PyVal).

Definition handle {X : Type} (ev : pyE X) (w : World)
  : Obs * (Outcome X * World) :=
  match ev in pyE X return Obs * (Outcome X * World) with
  | PerfCounter => (OClock (now w), (Returned (now w), tick w))
  | Print line => (OPrint line, (Returned tt, emit line w))
  | Call f args kwargs =>
      let '(r, w') := fn_body f args kwargs w in
      (OCall f args kwargs r, (r, w'))
  end.

(** Running the body of a plain function. *)
Fixpoint run {R : Type} (p : Prog pyE R) (w : World)
  : list Obs * (Outcome R * World) :=
  match p with
  | Ret r => ([], (Returned r, w))
  | Raise e => ([], (Raised e, w))
  | Vis ev k =>
      match handle ev w with
      | (o, (Returned x, w')) =>
          let '(tr, res) := run (k x) w' in (o :: tr, res)
      | (o, (Raised e, w')) => ([o], (Raised e, w'))
      end
  end.

(** ** Generators and [contextlib.contextmanager] *)

Inductive GenStep (R : Type) : Type :=
| Finished (r : R)
| Failed (e : Exn)
| Yielded (v : PyVal) (k : Resume -> Prog genE R).
Arguments Finished {R} r.
Arguments Failed {R} e.
Arguments Yielded {R} v k.

(** Running a generator up to its next [yield], its return or an
    exception that leaves it. *)
Fixpoint advance {R : Type} (g : Prog genE R) (w : World)
  : list Obs * (GenStep R * World) :=
  match g with
  | Ret r => ([], (Finished r, w))
  | Raise e => ([], (Failed e, w))
  | Vis ev k =>
      match ev in genE X
        return (X -> Prog genE R) ->
               (X -> World -> list Obs * (GenStep R * World)) ->
               list Obs * (GenStep R * World)
      with
      | Yield v => fun k' _ => ([], (Yielded v k', w))
      | Eff e => fun _ rest =>
          match handle e w with
          | (o, (Returned x, w')) =>
              let '(tr, res) := rest x w' in (o :: tr, res)
          | (o, (Raised ex, w')) => ([o], (Failed ex, w'))
          end
      end k (fun x => advance (k x))
  end.

(** The statement [yield v]: the value sent in is its result, an exception
    thrown in is raised at the statement. *)
Definition yield_ (v : PyVal) : Prog genE PyVal :=
  Vis (Yield v) (fun r =>
    match r with
    | Sent x => Ret x
    | Thrown e => Raise e
    end).

Definition RuntimeError (msg : string) : Exn :=
  mkExn "RuntimeError" [VStr msg].

(** [with contextmanager(g)(...) as v: block]: the generator runs to its
    [yield] on entry; on a normal exit of the block it is resumed with
    [next], on an exception with [throw], and the exception is swallowed
    only if the generator then returns. *)
Definition with_contextmanager
  (g : Prog genE PyVal)
  (block : PyVal -> World -> Outcome unit * World)
  (w : World) : list Obs * (Outcome unit * World) :=
  match advance g w with
  | (tr1, (Finished _, w1)) =>
      (tr1, (Raised (RuntimeError "generator didn't yield"), w1))
  | (tr1, (Failed e, w1)) => (tr1, (Raised e, w1))
  | (tr1, (Yielded v k, w1)) =>
      match block v w1 with
      | (Returned _, w2) =>
          match advance (k (Sent VNone)) w2 with
          | (tr2, (Finished _, w3)) => (tr1 ++ tr2, (Returned tt, w3))
          | (tr2, (Failed e, w3)) => (tr1 ++ tr2, (Raised e, w3))
          | (tr2, (Yielded _ _, w3)) =>
              (tr1 ++ tr2,
               (Raised (RuntimeError "generator didn't stop"), w3))
          end
      | (Raised exc, w2) =>
          match advance (k (Thrown exc)) w2 with
          | (tr2, (Finished _, w3)) => (tr1 ++ tr2, (Returned tt, w3))
          | (tr2, (Failed e, w3)) => (tr1 ++ tr2, (Raised e, w3))
          | (tr2, (Yielded _ _, w3)) =>
              (tr1 ++ tr2,
               (Raised
                  (RuntimeError "generator didn't stop after throw()"),
                w3))
          end
      end
  end.

(** ** The module [timing] *)

Definition perf_counter : Prog pyE float := trigger PerfCounter.
Definition print (line : string) : Prog pyE unit := trigger (Print line).
Definition call (f : Callable) (args : list PyVal) (kwargs : Kwargs)
  : Prog pyE PyVal := trigger (Call f args kwargs).

(** A statement of a plain function, inside a generator. *)
Fixpoint lift {R : Type} (p : Prog pyE R) : Prog genE R :=
  match p with
  | Ret r => Ret r
  | Raise e => Raise e
  | Vis ev k => Vis (Eff ev) (fun x => lift (k x))
  end.

(** [(end_time - start_time) * 1000] *)
Definition elapsed_ms (start_time end_time : float) : float :=
  F64.mul (F64.sub end_time start_time) (F64.of_Z 1000).

(** The inner function [wrapper] of [time_execution]. *)
Definition wrapper (func : Callable) (args : list PyVal) (kwargs : Kwargs)
  : Prog pyE PyVal :=
  start_time <- perf_counter ;;
  result <- call func args kwargs ;;
  end_time <- perf_counter ;;
  let execution_time := elapsed_ms start_time end_time in
  Ret (VTuple [result; VFloat execution_time]).

(** One step of [functools.update_wrapper]: the attribute of [wrapped] is
    assigned to the wrapper when [wrapped] has it, and skipped otherwise
    ([getattr] raises [AttributeError]). *)
Definition assign_attr (wrapped_attr wrapper_attr : option string)
  : option string :=
  match wrapped_attr with
  | Some value => Some value
  | None => wrapper_attr
  end.

(** [functools.wraps(wrapped)(f)]: [f] with the name, qualified name and
    docstring of [wrapped], as far as [wrapped] has them. *)
Definition functools_wraps (wrapped f : Callable) : Callable :=
  {| fn_name := assign_attr (fn_name wrapped) (fn_name f);
     fn_qualname := assign_attr (fn_qualname wrapped) (fn_qualname f);
     fn_doc := fn_doc wrapped;
     fn_body := fn_body f |}.

Definition time_execution (func : Callable) : Callable :=
  functools_wraps func
    {| fn_name := Some "wrapper";
       fn_qualname := Some "time_execution.<locals>.wrapper";
       fn_doc := None;
       fn_body := fun args kwargs w => snd (run (wrapper func args kwargs) w)
    |}.

(** The truth value of an [Optional[str]]: [None] and the empty string are
    false. *)
Definition truthy (description : option string) : bool :=
  match description with
  | None => false
  | Some EmptyString => false
  | Some _ => true
  end.

(** [str(description)] inside an f-string. *)
Definition str_of (description : option string) : string :=
  match description with
  | None => "None"
  | Some s => s
  end.

(** The generator function [timer]. *)
Definition timer (description : option string) : Prog genE PyVal :=
  start_time <- lift perf_counter ;;
  yield_ VNone ;;;
  end_time <- lift perf_counter ;;
  let execution_time := elapsed_ms start_time end_time in
  (if truthy description
   then lift (print (str_of description ++ " took "
                       ++ Format.format_2f execution_time ++ "ms"))
   else lift (print ("Execution took "
                       ++ Format.format_2f execution_time ++ "ms"))) ;;;
  Ret VNone.

(** [with timer(description): block] *)
Definition with_timer (description : option string)
  (block : World -> Outcome unit * World) (w : World)
  : list Obs * (Outcome unit * World) :=
  with_contextmanager (timer description) (fun _ => block) w.


(** ** Lines on standard output *)

(** The line feed. *)
Definition newline : ascii := ascii_of_N 10.

Fixpoint count_newlines (text : string) : nat :=
  match text with
  | EmptyString => 0
  | String c rest =>
      (if Ascii.eqb c newline then 1 else 0) + count_newlines rest
  end.

(** The lines that the [print] calls of a run put on standard output:
    [print(text)] writes [text] and a line feed, so one line and one
    more for every line feed inside [text]. *)
Fixpoint lines_written (texts : list string) : nat :=
  match texts with
  | [] => 0
  | text :: rest => S (count_newlines text) + lines_written rest
  end.

(** ** Reading a trace *)

Definition clock_reads (tr : list Obs) : list float :=
  flat_map (fun o => match o with OClock t => [t] | _ => [] end) tr.

Definition prints (tr : list Obs) : list string :=
  flat_map (fun o => match o with OPrint line => [line] | _ => [] end) tr.

Definition calls (tr : list Obs) : list (Callable * list PyVal * Kwargs) :=
  flat_map
    (fun o => match o with OCall f a kw _ => [(f, a, kw)] | _ => [] end) tr.

(** A trace with the timestamps blanked out: two runs with the same
    erased trace differ in nothing but what the clock returned. *)
Definition erase_clock (tr : list Obs) : list Obs :=
  map (fun o => match o with OClock _ => OClock F64.zero | _ => o end) tr.

(** [pair[0]] *)
Definition first_component (pair : PyVal) : option PyVal :=
  match pair with
  | VTuple (v :: _) => Some v
  | _ => None
  end.

(** Two outcomes of the decorated call with the same value component, or
    the same exception. *)
Definition same_value (o1 o2 : Outcome PyVal) : Prop :=
  match o1, o2 with
  | Returned p1, Returned p2 =>
      exists v, first_component p1 = Some v /\ first_component p2 = Some v
  | Raised e1, Raised e2 => e1 = e2
  | _, _ => False
  end.

(** ** Concrete inputs *)

Module Examples.

(** A clock that advances one second per read. *)
Definition w0 : World :=
  {| clock := fun n => F64.of_Z (Z.of_nat n); reads := 0; stdout := [] |}.

(** [def my_function(x): return x * 2], the example of the docstring. *)
Definition my_function : Callable :=
  {| fn_name := Some "my_function";
     fn_qualname := Some "my_function";
     fn_doc := Some "Doubles its argument.";
     fn_body := fun args kwargs w =>
       match args, kwargs with
       | [VInt x], [] => (Returned (VInt (x * 2)), w)
       | _, _ => (Raised (mkExn "TypeError" []), w)
       end |}.

Definition ValueError : Exn := mkExn "ValueError" [VStr "bad input"].

(** [def failing(): raise ValueError("bad input")] *)
Definition failing : Callable :=
  {| fn_name := Some "failing";
     fn_qualname := Some "failing";
     fn_doc := None;
     fn_body := fun _ _ w => (Raised ValueError, w) |}.

(** An instance of [class Doubler] with [def __call__(self, x): return
    x * 2] and no docstring: it has no [__name__]. *)
Definition doubler : Callable :=
  {| fn_name := None;
     fn_qualname := None;
     fn_doc := None;
     fn_body := fn_body my_function |}.

(** The description ["a\nb"]. *)
Definition two_line_description : string :=
  String "a" (String newline "b").

(** A second clock: three seconds per read, first read at 7 s. *)
Definition w1 : World :=
  {| clock := fun n => F64.of_Z (7 + 3 * Z.of_nat n); reads := 0;
     stdout := [] |}.

(** [pass] *)
Definition noop_block (w : World) : Outcome unit * World := (Returned tt, w).

(** [raise ValueError("bad input")] *)
Definition failing_block (w : World) : Outcome unit * World :=
  (Raised ValueError, w).

End Examples.

(** The message of [timer] as the specification words it: the description
    decides whenever one was supplied. *)
Definition described_message (description : option string) (elapsed : float)
  : string :=
  match description with
  | Some s => s ++ " took " ++ Format.format_2f elapsed ++ "ms"
  | None => "Execution took " ++ Format.format_2f elapsed ++ "ms"
  end.

(** ** Further definitions: order and sign of floats, nested uses *)

Module F64Order.

(** [x < y], as Python's comparison of floats has it. *)
Definition ltb (x y : float) : bool := SFltb x y.

(** A float that carries the sign [s] and is not a NaN. *)
Definition has_sign (s : bool) (x : float) : Prop :=
  match x with
  | S754_zero s' | S754_infinity s' | S754_finite s' _ _ => s' = s
  | S754_nan => False
  end.

(** A float of sign [s] that is neither zero nor a NaN, with an exponent
    in the range of the format. *)
Definition nonzero_result (s : bool) (x : float) : Prop :=
  match x with
  | S754_infinity s' => s' = s
  | S754_finite s' _ e => s' = s /\ (emin F64.prec F64.emax <= e)%Z
  | S754_zero _ | S754_nan => False
  end.

End F64Order.

(** The line [timer] prints for an elapsed time. *)
Definition timer_message (description : option string)
  (execution_time : float) : string :=
  if truthy description
  then str_of description ++ " took "
       ++ Format.format_2f execution_time ++ "ms"
  else "Execution took " ++ Format.format_2f execution_time ++ "ms".

(** A [with timer(description): block] statement used as a block. *)
Definition timed_block (description : option string)
  (block : World -> Outcome unit * World) (w : World)
  : Outcome unit * World :=
  snd (with_timer description block w).

Module MoreExamples.

(** A clock that returns 5 s at every read. *)
Definition stalled : World :=
  {| clock := fun _ => F64.of_Z 5; reads := 0; stdout := [] |}.

(** A clock that runs backwards from 10 s, one second per read. *)
Definition backwards : World :=
  {| clock := fun n => F64.of_Z (10 - Z.of_nat n); reads := 0;
     stdout := [] |}.

(** [print("working")] *)
Definition printing_block (w : World) : Outcome unit * World :=
  (Returned tt, emit "working" w).

End MoreExamples.

(** * Facts *)

(** ** Binary64 arithmetic *)

Module F64Facts.
Import F64.
Local Open Scope Z_scope.

(** *** Right shifts keep a mantissa non-negative *)

Lemma shr_1_nonneg (mrs : shr_record) :
  0 <= shr_m mrs -> 0 <= shr_m (shr_1 mrs).
Proof.
  destruct mrs as [m r s]; simpl.
  destruct m as [|p|p]; try destruct p; simpl; lia.
Qed.

Lemma iter_pos_shr_1_nonneg (n : positive) :
  forall mrs, 0 <= shr_m mrs -> 0 <= shr_m (iter_pos shr_1 n mrs).
Proof.
  induction n as [n IH|n IH|]; intros mrs H; simpl.
  - apply IH, IH, shr_1_nonneg, H.
  - apply IH, IH, H.
  - apply shr_1_nonneg, H.
Qed.

Lemma shr_record_of_loc_m (m : Z) (l : location) :
  shr_m (shr_record_of_loc m l) = m.
Proof. destruct l as [|[]]; reflexivity. Qed.

Lemma shr_fexp_nonneg (m e : Z) (l : location) :
  0 <= m -> 0 <= shr_m (fst (shr_fexp prec emax m e l)).
Proof.
  intros H. unfold shr_fexp, shr.
  destruct (fexp prec emax (Zdigits2 m + e) - e) as [|p|p]; simpl;
    try (rewrite shr_record_of_loc_m; exact H).
  apply iter_pos_shr_1_nonneg. rewrite shr_record_of_loc_m. exact H.
Qed.

Lemma round_nearest_even_nonneg (m : Z) (l : location) :
  0 <= m -> 0 <= round_nearest_even m l.
Proof.
  intros H. destruct l as [|[]]; simpl; try lia.
  destruct (Z.even m); lia.
Qed.

Lemma binary_round_aux_positive (m e : Z) (l : location) :
  0 <= m -> positive_result (binary_round_aux prec emax false m e l).
Proof.
  intros H. unfold binary_round_aux.
  pose proof (shr_fexp_nonneg m e l H) as H1.
  destruct (shr_fexp prec emax m e l) as [mrs' e']. simpl in H1.
  pose proof (shr_fexp_nonneg _ e' loc_Exact
                (round_nearest_even_nonneg _ (loc_of_shr_record mrs') H1)) as H2.
  destruct (shr_fexp prec emax _ e' loc_Exact) as [mrs'' e'']. simpl in H2.
  destruct (shr_m mrs'') as [|p|p].
  - reflexivity.
  - destruct (e'' <=? emax - prec); reflexivity.
  - lia.
Qed.

Lemma binary_normalize_positive (m e : Z) :
  0 <= m -> positive_result (binary_normalize prec emax m e false).
Proof.
  intros H. destruct m as [|p|p]; simpl; try reflexivity; try lia.
  unfold binary_round.
  destruct (shl_align p e _) as [mz ez].
  apply binary_round_aux_positive. lia.
Qed.

Lemma positive_result_nonneg (x : float) :
  positive_result x -> nonneg x = true.
Proof.
  destruct x as [s|s| |s m e]; simpl; intros H; try subst s;
    try reflexivity; contradiction.
Qed.

(** *** The order of canonical floats *)

Lemma digits2_pos_size (m : positive) : digits2_pos m = Pos.size m.
Proof. induction m; simpl; congruence. Qed.

Lemma digits2_bounds (m : positive) :
  2 ^ (Zpos (digits2_pos m) - 1) <= Zpos m < 2 ^ Zpos (digits2_pos m).
Proof.
  rewrite digits2_pos_size.
  pose proof (Pos.size_gt m) as Hgt.
  pose proof (Pos.size_le m) as Hle.
  apply Pos2Z.pos_lt_pos in Hgt. apply Pos2Z.pos_le_pos in Hle.
  rewrite Pos2Z.inj_pow in Hgt, Hle.
  change (Zpos m~0) with (2 * Zpos m) in Hle.
  assert (E : 2 ^ Zpos (Pos.size m) = 2 * 2 ^ (Zpos (Pos.size m) - 1)).
  { rewrite <- Z.pow_succ_r by lia. f_equal. lia. }
  lia.
Qed.

Lemma iter_xO_value (d m : positive) :
  Zpos (Pos.iter xO m d) = Zpos m * 2 ^ Zpos d.
Proof.
  induction d as [|d IH] using Pos.peano_ind.
  - simpl. lia.
  - rewrite Pos.iter_succ, Pos2Z.inj_succ, Z.pow_succ_r by lia.
    change (Zpos (Pos.iter xO m d)~0) with (2 * Zpos (Pos.iter xO m d)).
    rewrite IH. lia.
Qed.

Lemma shl_align_value (m : positive) (e e' : Z) :
  e' <= e ->
  Zpos (fst (shl_align m e e')) = Zpos m * 2 ^ (e - e').
Proof.
  intros H. unfold shl_align.
  destruct (e' - e) as [|d|d] eqn:Hd; simpl.
  - replace (e - e') with 0 by lia. simpl. lia.
  - lia.
  - replace (e - e') with (Zpos d) by lia. apply iter_xO_value.
Qed.

(** The exponent of a canonical mantissa is the least one, or the mantissa
    has all its [prec] digits. *)
Lemma canonical_cases (m : positive) (e : Z) :
  canonical_mantissa prec emax m e = true ->
  Zpos (digits2_pos m) <= prec /\
  (e = emin prec emax \/ Zpos (digits2_pos m) = prec).
Proof.
  unfold canonical_mantissa, fexp. intros H. apply Z.eqb_eq in H. lia.
Qed.

(** Of two canonical mantissas, the one with the smaller exponent is the
    smaller number. *)
Lemma canonical_exponent_lt (m1 m2 : positive) (e1 e2 : Z) :
  canonical_mantissa prec emax m1 e1 = true ->
  canonical_mantissa prec emax m2 e2 = true ->
  e1 < e2 ->
  Zpos m1 < Zpos m2 * 2 ^ (e2 - e1).
Proof.
  intros C1 C2 Hlt.
  destruct (canonical_cases _ _ C1) as [D1 _].
  destruct (canonical_cases _ _ C2) as [_ D2].
  assert (E1 : emin prec emax <= e1).
  { unfold canonical_mantissa, fexp in C1. apply Z.eqb_eq in C1. lia. }
  destruct D2 as [D2|D2]; [lia|].
  pose proof (digits2_bounds m1) as [_ B1].
  pose proof (digits2_bounds m2) as [B2 _].
  rewrite D2 in B2.
  assert (P1 : 2 ^ Zpos (digits2_pos m1) <= 2 ^ prec)
    by (apply Z.pow_le_mono_r; lia).
  assert (P2 : 2 ^ 1 <= 2 ^ (e2 - e1)) by (apply Z.pow_le_mono_r; lia).
  change (2 ^ 1) with 2 in P2.
  assert (P3 : 2 ^ prec = 2 * 2 ^ (prec - 1)) by reflexivity.
  nia.
Qed.

Lemma aligned_order (sx sy : bool) (mx my : positive) (ex ey : Z) :
  valid (S754_finite sx mx ex) = true ->
  valid (S754_finite sy my ey) = true ->
  leb (S754_finite sy my ey) (S754_finite sx mx ex) = true ->
  aligned sy my ey (Z.min ex ey) <= aligned sx mx ex (Z.min ex ey).
Proof.
  unfold valid, valid_binary, bounded, leb, SFleb, aligned.
  intros Vx Vy L.
  apply andb_prop in Vx as [Cx _]. apply andb_prop in Vy as [Cy _].
  rewrite !shl_align_value by lia.
  assert (Px : 0 < Zpos mx * 2 ^ (ex - Z.min ex ey))
    by (apply Z.mul_pos_pos; [lia|apply Z.pow_pos_nonneg; lia]).
  assert (Py : 0 < Zpos my * 2 ^ (ey - Z.min ex ey))
    by (apply Z.mul_pos_pos; [lia|apply Z.pow_pos_nonneg; lia]).
  simpl in L. unfold cond_Zopp.
  destruct sx, sy; try lia; try discriminate L.
  - destruct (Z.compare_spec ey ex) as [E|E|E]; try discriminate L.
    + subst ey. rewrite Z.min_id, Z.sub_diag, Z.pow_0_r, !Z.mul_1_r.
      fold (Pos.compare my mx) in L.
      destruct (Pos.compare_spec my mx); simpl in L; try discriminate L; lia.
    + pose proof (canonical_exponent_lt _ _ _ _ Cx Cy E).
      replace (Z.min ex ey) with ex by lia.
      rewrite Z.sub_diag, Z.pow_0_r, Z.mul_1_r. lia.
  - destruct (Z.compare_spec ey ex) as [E|E|E]; try discriminate L.
    + subst ey. rewrite Z.min_id, Z.sub_diag, Z.pow_0_r, !Z.mul_1_r.
      fold (Pos.compare my mx) in L.
      destruct (Pos.compare_spec my mx); simpl in L; try discriminate L; lia.
    + pose proof (canonical_exponent_lt _ _ _ _ Cy Cx E).
      replace (Z.min ex ey) with ey by lia.
      rewrite Z.sub_diag, Z.pow_0_r, Z.mul_1_r. lia.
Qed.

(** *** The elapsed time *)

Lemma sub_nonneg (x y : float) :
  valid x = true -> valid y = true ->
  is_finite x = true -> is_finite y = true ->
  leb y x = true ->
  nonneg (sub x y) = true.
Proof.
  intros Vx Vy Fx Fy L.
  destruct x as [sx|sx| |sx mx ex]; try discriminate Fx;
    destruct y as [sy|sy| |sy my ey]; try discriminate Fy.
  - destruct sx, sy; reflexivity.
  - destruct sy; [reflexivity|discriminate L].
  - destruct sx; [discriminate L|reflexivity].
  - apply positive_result_nonneg. unfold sub, SFsub.
    apply binary_normalize_positive.
    pose proof (aligned_order _ _ _ _ _ _ Vx Vy L) as A.
    unfold aligned in A. lia.
Qed.

Lemma mul_nonneg (x : float) (m : positive) (e : Z) :
  nonneg x = true -> nonneg (mul x (S754_finite false m e)) = true.
Proof.
  intros H.
  destruct x as [sx|sx| |sx mx ex]; try discriminate H.
  - destruct sx; reflexivity.
  - destruct sx; [discriminate H|reflexivity].
  - destruct sx; [discriminate H|].
    apply positive_result_nonneg. unfold mul, SFmul. simpl xorb.
    apply binary_round_aux_positive. lia.
Qed.

End F64Facts.

Module FormatFacts.
Import Format.
Local Open Scope Z_scope.

(** A finite float is printed with a point and two decimal digits. *)
Lemma format_2f_two_decimals (x : float) :
  F64.is_finite x = true ->
  exists (ip : string) (d1 d2 : Z),
    format_2f x = (ip ++ "." ++ String (digit d1) (String (digit d2) ""))%string
    /\ 0 <= d1 < 10 /\ 0 <= d2 < 10.
Proof.
  destruct x as [s|s| |s m e]; intros F; try discriminate F.
  - exists (sign_prefix s ++ "0")%string, 0, 0.
    split; [destruct s; reflexivity|lia].
  - exists (sign_prefix s ++ decimal (hundredths m e / 100))%string,
      (hundredths m e mod 100 / 10), ((hundredths m e mod 100) mod 10).
    split; [destruct s; reflexivity|].
    pose proof (Z.mod_pos_bound (hundredths m e) 100 ltac:(lia)) as B.
    split.
    + split; [apply Z.div_pos; lia|apply Z.div_lt_upper_bound; lia].
    + apply Z.mod_pos_bound. lia.
Qed.

(** 0.125 is a tie and goes to the even digit; the double nearest to 2.675
    lies below it. *)
Example format_2f_eighth :
  format_2f (S754_finite false 1 (-3)) = "0.12"%string.
Proof. reflexivity. Qed.

Example format_2f_three_eighths :
  format_2f (S754_finite false 3 (-3)) = "0.38"%string.
Proof. reflexivity. Qed.

Example format_2f_2675 :
  format_2f (S754_finite false 6023564501608038 (-51)) = "2.67"%string.
Proof. vm_compute. reflexivity. Qed.

Example format_2f_small_negative :
  format_2f (S754_finite true 1 (-10)) = "-0.00"%string.
Proof. reflexivity. Qed.

End FormatFacts.

(** ** The elapsed time *)

Lemma of_Z_1000 : F64.of_Z 1000 = S754_finite false 8796093022208000 (-43).
Proof. vm_compute. reflexivity. Qed.

Lemma elapsed_ms_nonneg (start_time end_time : float) :
  F64.is_double start_time = true ->
  F64.is_double end_time = true ->
  F64.leb start_time end_time = true ->
  F64.nonneg (elapsed_ms start_time end_time) = true.
Proof.
  unfold F64.is_double. intros Hs He L.
  apply andb_prop in Hs as [Vs Fs]. apply andb_prop in He as [Ve Fe].
  unfold elapsed_ms. rewrite of_Z_1000.
  apply F64Facts.mul_nonneg, F64Facts.sub_nonneg; assumption.
Qed.

(** ** Line feeds in the printed text *)

Module LineFacts.
Import Format.

Lemma count_newlines_app (a b : string) :
  count_newlines (a ++ b) = count_newlines a + count_newlines b.
Proof.
  induction a as [|c a IH]; simpl; [reflexivity|].
  rewrite IH. apply Nat.add_assoc.
Qed.

Lemma count_newlines_uint (d : Decimal.uint) :
  count_newlines (NilEmpty.string_of_uint d) = 0.
Proof. induction d; simpl; first [assumption | reflexivity]. Qed.

Lemma count_newlines_decimal (n : Z) : count_newlines (decimal n) = 0.
Proof.
  unfold decimal, NilZero.string_of_uint.
  destruct (N.to_uint (Z.to_N n)) eqn:E; try reflexivity;
    rewrite <- E; apply count_newlines_uint.
Qed.

Lemma digit_not_newline (n : Z) :
  (0 <= n < 10)%Z -> Ascii.eqb (digit n) newline = false.
Proof.
  intros H. apply Ascii.eqb_neq. unfold digit, newline. intros E.
  apply (f_equal N_of_ascii) in E.
  rewrite !N_ascii_embedding in E by lia. lia.
Qed.

Lemma count_newlines_two_digits (n : Z) :
  (0 <= n < 100)%Z -> count_newlines (two_digits n) = 0.
Proof.
  intros H. unfold two_digits. simpl.
  rewrite !digit_not_newline; [reflexivity| |].
  - apply Z.mod_pos_bound. lia.
  - split; [apply Z.div_pos; lia|apply Z.div_lt_upper_bound; lia].
Qed.

(** The text that [.2f] gives for a float has no line feed. *)
Lemma count_newlines_format_2f (x : float) :
  count_newlines (format_2f x) = 0.
Proof.
  destruct x as [s|s| |s m e]; try (destruct s; reflexivity).
  - reflexivity.
  - unfold format_2f. rewrite !count_newlines_app.
    rewrite count_newlines_decimal.
    rewrite count_newlines_two_digits by (apply Z.mod_pos_bound; lia).
    destruct s; reflexivity.
Qed.

(** A message of [timer] has the line feeds of its head and no other. *)
Lemma count_newlines_message (head : string) (x : float) :
  count_newlines (head ++ format_2f x ++ "ms") = count_newlines head.
Proof.
  rewrite !count_newlines_app, count_newlines_format_2f. simpl.
  rewrite Nat.add_0_r. reflexivity.
Qed.

End LineFacts.

(** ** What a run of [wrapper] and of [with timer(...)] does *)

Lemma run_wrapper (func : Callable) (args : list PyVal) (kwargs : Kwargs)
  (w : World) :
  run (wrapper func args kwargs) w =
  match fn_body func args kwargs (tick w) with
  | (Returned v, w2) =>
      ([OClock (now w); OCall func args kwargs (Returned v); OClock (now w2)],
       (Returned (VTuple [v; VFloat (elapsed_ms (now w) (now w2))]), tick w2))
  | (Raised e, w2) =>
      ([OClock (now w); OCall func args kwargs (Raised e)], (Raised e, w2))
  end.
Proof.
  unfold wrapper, perf_counter, call, trigger. simpl.
  destruct (fn_body func args kwargs (tick w)) as [[v|e] w2]; reflexivity.
Qed.

Lemma with_timer_normal (description : option string)
  (block : World -> Outcome unit * World) (w w2 : World) (u : unit) :
  block (tick w) = (Returned u, w2) ->
  with_timer description block w =
  (if truthy description
   then
     let line := (str_of description ++ " took "
                  ++ Format.format_2f (elapsed_ms (now w) (now w2))
                  ++ "ms")%string in
     ([OClock (now w); OClock (now w2); OPrint line],
      (Returned tt, emit line (tick w2)))
   else
     let line := ("Execution took "
                  ++ Format.format_2f (elapsed_ms (now w) (now w2))
                  ++ "ms")%string in
     ([OClock (now w); OClock (now w2); OPrint line],
      (Returned tt, emit line (tick w2)))).
Proof.
  intros Hb. unfold with_timer, with_contextmanager, timer. simpl.
  rewrite Hb. simpl. destruct (truthy description); reflexivity.
Qed.

Lemma with_timer_raised (description : option string)
  (block : World -> Outcome unit * World) (w w2 : World) (e : Exn) :
  block (tick w) = (Raised e, w2) ->
  with_timer description block w = ([OClock (now w)], (Raised e, w2)).
Proof.
  intros Hb. unfold with_timer, with_contextmanager, timer. simpl.
  rewrite Hb. reflexivity.
Qed.

(** * The decorator [time_execution] *)

Section Decorator.

Variable func : Callable.
Variable args : list PyVal.
Variable kwargs : Kwargs.
Variable w : World.

(** C1. When the call of [func] on the arguments returns [v], the decorated
    callable returns the pair of [v] and the elapsed milliseconds, and
    [func] was called on exactly the arguments the wrapper received. *)
Theorem time_execution_returns_value (v : PyVal) (w2 : World) :
  fn_body func args kwargs (tick w) = (Returned v, w2) ->
  fn_body (time_execution func) args kwargs w =
    (Returned (VTuple [v; VFloat (elapsed_ms (now w) (now w2))]), tick w2)
  /\ calls (fst (run (wrapper func args kwargs) w)) = [(func, args, kwargs)].
Proof.
  intros Hf. unfold time_execution, functools_wraps. cbn [fn_body].
  rewrite run_wrapper, Hf. split; reflexivity.
Qed.

(** C3. When the call of [func] raises [e], the decorated callable raises
    the same [e]: no pair is returned, and the world is the one [func]
    left, with no second read of the clock. *)
Theorem time_execution_reraises (e : Exn) (w2 : World) :
  fn_body func args kwargs (tick w) = (Raised e, w2) ->
  fn_body (time_execution func) args kwargs w = (Raised e, w2).
Proof.
  intros Hf. unfold time_execution, functools_wraps. cbn [fn_body].
  rewrite run_wrapper, Hf. reflexivity.
Qed.

(** C6, as amended. When [func] has a name, the decorated callable has
    that name; it has the docstring of [func] in every case. *)
Theorem time_execution_preserves_metadata :
  (fn_name func <> None -> fn_name (time_execution func) = fn_name func)
  /\ fn_doc (time_execution func) = fn_doc func.
Proof.
  split; [|reflexivity].
  unfold time_execution, functools_wraps, assign_attr. cbn [fn_name].
  destruct (fn_name func) as [n|]; [reflexivity|]. intros H. now elim H.
Qed.

(** C10. A call of the wrapper calls [func] exactly once, and two runs
    that differ only in the timestamps the clock returned give the same
    value component (or raise the same exception). *)
Theorem time_execution_clock_independent (w' : World) :
  calls (fst (run (wrapper func args kwargs) w)) = [(func, args, kwargs)]
  /\ (erase_clock (fst (run (wrapper func args kwargs) w))
        = erase_clock (fst (run (wrapper func args kwargs) w')) ->
      same_value (fst (fn_body (time_execution func) args kwargs w))
                 (fst (fn_body (time_execution func) args kwargs w'))).
Proof.
  unfold time_execution, functools_wraps. cbn [fn_body].
  rewrite !run_wrapper.
  destruct (fn_body func args kwargs (tick w)) as [[v|e] w2];
    destruct (fn_body func args kwargs (tick w')) as [[v'|e'] w2'];
    simpl; split; try reflexivity; intros E; try discriminate E.
  - injection E as E. subst v'. exists v. split; reflexivity.
  - injection E as E. exact E.
Qed.

End Decorator.

(** * The context manager [timer] *)

Section Timer.

Variable description : option string.
Variable block : World -> Outcome unit * World.
Variable w : World.

(** C4. An exception raised by the block leaves the [with] statement
    unchanged. *)
Theorem timer_propagates_exception (e : Exn) (w2 : World) :
  block (tick w) = (Raised e, w2) ->
  fst (snd (with_timer description block w)) = Raised e.
Proof. intros Hb. rewrite (with_timer_raised _ _ _ _ _ Hb). reflexivity. Qed.

(** C9. When the block raises, the timer reads the clock once, on entry,
    prints nothing, and leaves the world as the block left it. *)
Theorem timer_silent_on_exception (e : Exn) (w2 : World) :
  block (tick w) = (Raised e, w2) ->
  prints (fst (with_timer description block w)) = []
  /\ clock_reads (fst (with_timer description block w)) = [now w]
  /\ snd (snd (with_timer description block w)) = w2.
Proof.
  intros Hb. rewrite (with_timer_raised _ _ _ _ _ Hb). repeat split.
Qed.

(** C2, as amended. On a normal exit of the block the timer makes exactly
    one [print] call, after whatever the block printed: the description
    followed by [took] when the description is a non-empty string, and
    [Execution took] when it is [None] or the empty string; the elapsed
    milliseconds are formatted with [.2f].  That call puts one line on
    standard output, and one more for every line feed inside the
    description: exactly one line when the description has none. *)
Theorem timer_prints_one_line (u : unit) (w2 : World) :
  block (tick w) = (Returned u, w2) ->
  let elapsed := Format.format_2f (elapsed_ms (now w) (now w2)) in
  let tr := fst (with_timer description block w) in
  let w3 := snd (snd (with_timer description block w)) in
  (forall c s, description = Some (String c s) ->
     prints tr = [(String c s ++ " took " ++ elapsed ++ "ms")%string]
     /\ stdout w3
        = stdout w2 ++ [(String c s ++ " took " ++ elapsed ++ "ms")%string]
     /\ lines_written (prints tr) = S (count_newlines (String c s))
     /\ (count_newlines (String c s) = 0 -> lines_written (prints tr) = 1))
  /\ (description = None \/ description = Some "" ->
     prints tr = [("Execution took " ++ elapsed ++ "ms")%string]
     /\ stdout w3
        = stdout w2 ++ [("Execution took " ++ elapsed ++ "ms")%string]
     /\ lines_written (prints tr) = 1).
Proof.
  intros Hb. cbv zeta. rewrite (with_timer_normal _ _ _ _ _ Hb). split.
  - intros c s ->.
    assert (L : lines_written
                  [(String c s ++ " took "
                    ++ Format.format_2f (elapsed_ms (now w) (now w2))
                    ++ "ms")%string]
                = S (count_newlines (String c s))).
    { cbn [lines_written]. rewrite Nat.add_0_r. f_equal.
      rewrite LineFacts.count_newlines_app.
      rewrite (LineFacts.count_newlines_message " took "). simpl.
      rewrite Nat.add_0_r. reflexivity. }
    split; [reflexivity|]. split; [reflexivity|]. split; [exact L|].
    intros Z0. cbn [truthy fst prints flat_map app] in *.
    cbn [str_of]. rewrite L, Z0. reflexivity.
  - assert (L : lines_written
                  [("Execution took "
                    ++ Format.format_2f (elapsed_ms (now w) (now w2))
                    ++ "ms")%string] = 1).
    { cbn [lines_written]. rewrite Nat.add_0_r. f_equal.
      apply (LineFacts.count_newlines_message "Execution took "). }
    intros [-> | ->]; (split; [reflexivity|]); (split; [reflexivity|]);
      exact L.
Qed.

(** C7. The generator yields [None], so that is what the [with] statement
    binds; the statement itself has no value, and on a normal exit the
    world differs from the one the block left by the second read of the
    clock and one line on standard output. *)
Theorem timer_yields_none :
  (forall blk : PyVal -> World -> Outcome unit * World,
     with_contextmanager (timer description) blk w
     = with_timer description (blk VNone) w)
  /\ (forall u w2, block (tick w) = (Returned u, w2) ->
        exists line,
          snd (with_timer description block w)
          = (Returned tt, emit line (tick w2))).
Proof.
  split.
  - intros blk. reflexivity.
  - intros u w2 Hb. rewrite (with_timer_normal _ _ _ _ _ Hb).
    destruct (truthy description); eexists; reflexivity.
Qed.

End Timer.

(** C8. With the empty string as description, a block that exits normally
    gets the message without description. *)
Theorem timer_empty_description
  (block : World -> Outcome unit * World) (w w2 : World) (u : unit) :
  block (tick w) = (Returned u, w2) ->
  prints (fst (with_timer (Some "") block w))
  = [("Execution took "
        ++ Format.format_2f (elapsed_ms (now w) (now w2)) ++ "ms")%string].
Proof. intros Hb. rewrite (with_timer_normal _ _ _ _ _ Hb). reflexivity. Qed.

(** C5. A completed measurement whose two timestamps are finite doubles,
    the second not before the first, has a non-negative elapsed time: the
    one the decorator returns and the one the timer prints. *)
Theorem elapsed_time_nonneg (t0 t1 : float) :
  F64.is_double t0 = true ->
  F64.is_double t1 = true ->
  F64.leb t0 t1 = true ->
  (forall func args kwargs w r w',
     snd (run (wrapper func args kwargs) w) = (Returned r, w') ->
     clock_reads (fst (run (wrapper func args kwargs) w)) = [t0; t1] ->
     exists v elapsed,
       r = VTuple [v; VFloat elapsed]
       /\ elapsed = elapsed_ms t0 t1
       /\ F64.nonneg elapsed = true)
  /\ (forall description block w u w',
     snd (with_timer description block w) = (Returned u, w') ->
     clock_reads (fst (with_timer description block w)) = [t0; t1] ->
     exists elapsed,
       (prints (fst (with_timer description block w))
        = [if truthy description
           then (str_of description ++ " took "
                 ++ Format.format_2f elapsed ++ "ms")%string
           else ("Execution took "
                 ++ Format.format_2f elapsed ++ "ms")%string])
       /\ elapsed = elapsed_ms t0 t1
       /\ F64.nonneg elapsed = true).
Proof.
  intros D0 D1 L.
  pose proof (elapsed_ms_nonneg _ _ D0 D1 L) as N.
  split.
  - intros func args kwargs w r w'. rewrite run_wrapper.
    destruct (fn_body func args kwargs (tick w)) as [[v|e] w2]; simpl;
      intros Hr Hc; try discriminate Hr.
    injection Hc as <- <-. injection Hr as <- _.
    exists v, (elapsed_ms (now w) (now w2)). repeat split. exact N.
  - intros description block w u w'.
    destruct (block (tick w)) as [[u'|e] w2] eqn:Hb.
    + rewrite (with_timer_normal _ _ _ _ _ Hb).
      destruct (truthy description); simpl; intros _ Hc;
        injection Hc as <- <-;
        exists (elapsed_ms (now w) (now w2)); repeat split; exact N.
    + rewrite (with_timer_raised _ _ _ _ _ Hb). simpl.
      intros Hr. discriminate Hr.
Qed.

(** * Concrete runs *)

Section Runs.
Import Examples.

Lemma time_execution_returns_value_witness :
  fn_body (time_execution my_function) [VInt 5] [] w0
  = (Returned (VTuple [VInt 10; VFloat (F64.of_Z 1000)]), tick (tick w0))
  /\ calls (fst (run (wrapper my_function [VInt 5] []) w0))
     = [(my_function, [VInt 5], [])].
Proof.
  exact (time_execution_returns_value my_function [VInt 5] [] w0
           (VInt 10) (tick w0) eq_refl).
Defined.

Lemma time_execution_reraises_witness :
  fn_body (time_execution failing) [] [] w0 = (Raised ValueError, tick w0).
Proof.
  apply (time_execution_reraises failing [] [] w0 ValueError (tick w0)).
  reflexivity.
Defined.

Lemma time_execution_clock_independent_witness :
  same_value (fst (fn_body (time_execution my_function) [VInt 5] [] w0))
             (fst (fn_body (time_execution my_function) [VInt 5] [] w1)).
Proof.
  apply (proj2 (time_execution_clock_independent
                  my_function [VInt 5] [] w0 w1)).
  reflexivity.
Defined.

Lemma timer_propagates_exception_witness :
  fst (snd (with_timer (Some "load") failing_block w0)) = Raised ValueError.
Proof.
  apply (timer_propagates_exception (Some "load") failing_block w0
           ValueError (tick w0)).
  reflexivity.
Defined.

Lemma timer_silent_on_exception_witness :
  prints (fst (with_timer (Some "load") failing_block w0)) = []
  /\ clock_reads (fst (with_timer (Some "load") failing_block w0)) = [now w0]
  /\ snd (snd (with_timer (Some "load") failing_block w0)) = tick w0.
Proof.
  apply (timer_silent_on_exception (Some "load") failing_block w0
           ValueError (tick w0)).
  reflexivity.
Defined.

Lemma timer_prints_one_line_witness :
  (prints (fst (with_timer (Some "load") noop_block w0))
   = ["load took 1000.00ms"]
   /\ stdout (snd (snd (with_timer (Some "load") noop_block w0)))
      = ["load took 1000.00ms"]
   /\ lines_written (prints (fst (with_timer (Some "load") noop_block w0)))
      = 1)
  /\ (prints (fst (with_timer None noop_block w0))
      = ["Execution took 1000.00ms"]
      /\ lines_written (prints (fst (with_timer None noop_block w0))) = 1).
Proof.
  split.
  - destruct (proj1 (timer_prints_one_line (Some "load") noop_block w0
                       tt (tick w0) eq_refl) "l"%char "oad" eq_refl)
      as (P & S & _ & L).
    split; [exact P|]. split; [exact S|]. apply L. reflexivity.
  - destruct (proj2 (timer_prints_one_line None noop_block w0
                       tt (tick w0) eq_refl) (or_introl eq_refl))
      as (P & _ & L).
    split; [exact P|exact L].
Defined.

Lemma time_execution_preserves_metadata_witness :
  fn_name (time_execution my_function) = Some "my_function"
  /\ fn_doc (time_execution my_function) = Some "Doubles its argument.".
Proof.
  destruct (time_execution_preserves_metadata my_function) as [N D].
  split; [apply N; discriminate|exact D].
Defined.

Lemma timer_yields_none_witness :
  exists line,
    snd (with_timer None noop_block w0) = (Returned tt, emit line (tick (tick w0))).
Proof.
  apply (proj2 (timer_yields_none None noop_block w0) tt (tick w0)).
  reflexivity.
Defined.

Lemma timer_empty_description_witness :
  prints (fst (with_timer (Some "") noop_block w0))
  = ["Execution took 1000.00ms"].
Proof.
  apply (timer_empty_description noop_block w0 (tick w0) tt).
  reflexivity.
Defined.

Lemma elapsed_time_nonneg_witness :
  (exists v elapsed,
     VTuple [VInt 10; VFloat (F64.of_Z 1000)] = VTuple [v; VFloat elapsed]
     /\ elapsed = elapsed_ms (now w0) (now (tick w0))
     /\ F64.nonneg elapsed = true)
  /\ (exists elapsed,
     prints (fst (with_timer (Some "load") noop_block w0))
     = [if truthy (Some "load")
        then (str_of (Some "load") ++ " took "
              ++ Format.format_2f elapsed ++ "ms")%string
        else ("Execution took " ++ Format.format_2f elapsed ++ "ms")%string]
     /\ elapsed = elapsed_ms (now w0) (now (tick w0))
     /\ F64.nonneg elapsed = true).
Proof.
  assert (D0 : F64.is_double (now w0) = true) by (vm_compute; reflexivity).
  assert (D1 : F64.is_double (now (tick w0)) = true)
    by (vm_compute; reflexivity).
  assert (L : F64.leb (now w0) (now (tick w0)) = true)
    by (vm_compute; reflexivity).
  destruct (elapsed_time_nonneg (now w0) (now (tick w0)) D0 D1 L) as [Hd Ht].
  split.
  - apply (Hd my_function [VInt 5] [] w0 _ (tick (tick w0))); reflexivity.
  - apply (Ht (Some "load") noop_block w0 tt
              (emit "load took 1000.00ms" (tick (tick w0)))); reflexivity.
Defined.

(** C2, as the specification states it, fails on the empty description:
    the specification has the line [ took 1000.00ms], the timer prints
    [Execution took 1000.00ms].  It fails as well on a description with
    a line feed inside, for which the one [print] call puts two lines on
    standard output, not one. *)
Lemma timer_described_message_counterexample :
  noop_block (tick w0) = (Returned tt, tick w0)
  /\ described_message (Some "") (elapsed_ms (now w0) (now (tick w0)))
     = " took 1000.00ms"
  /\ prints (fst (with_timer (Some "") noop_block w0))
     = ["Execution took 1000.00ms"]
  /\ prints (fst (with_timer (Some "") noop_block w0))
     <> [described_message (Some "") (elapsed_ms (now w0) (now (tick w0)))]
  /\ prints (fst (with_timer (Some two_line_description) noop_block w0))
     = [String "a" (String newline "b took 1000.00ms")]
  /\ lines_written
       (prints (fst (with_timer (Some two_line_description) noop_block w0)))
     = 2
  /\ lines_written
       (prints (fst (with_timer (Some two_line_description) noop_block w0)))
     <> 1.
Proof.
  split; [reflexivity|]. split; [vm_compute; reflexivity|].
  split; [vm_compute; reflexivity|].
  split; [vm_compute; intros H; discriminate H|].
  split; [vm_compute; reflexivity|].
  split; [vm_compute; reflexivity|].
  vm_compute. intros H. discriminate H.
Qed.

(** C6, as the specification states it, fails on a callable without a
    name: the decorated callable is named [wrapper]. *)
Lemma time_execution_nameless_counterexample :
  fn_name doubler = None
  /\ fn_name (time_execution doubler) = Some "wrapper"
  /\ fn_name (time_execution doubler) <> fn_name doubler.
Proof.
  split; [reflexivity|]. split; [reflexivity|]. intros H. discriminate H.
Qed.

End Runs.

(** * Further facts *)

(** ** Sign and order of the rounded results *)

Module F64OrderFacts.
Import F64 F64Facts.
Local Open Scope Z_scope.

Lemma binary_round_aux_sign (s : bool) (m e : Z) (l : location) :
  0 <= m -> F64Order.has_sign s (binary_round_aux prec emax s m e l).
Proof.
  intros H. unfold binary_round_aux.
  pose proof (shr_fexp_nonneg m e l H) as H1.
  destruct (shr_fexp prec emax m e l) as [mrs' e']. simpl in H1.
  pose proof (shr_fexp_nonneg _ e' loc_Exact
                (round_nearest_even_nonneg _ (loc_of_shr_record mrs') H1)) as H2.
  destruct (shr_fexp prec emax _ e' loc_Exact) as [mrs'' e'']. simpl in H2.
  destruct (shr_m mrs'') as [|p|p].
  - reflexivity.
  - destruct (e'' <=? emax - prec); reflexivity.
  - lia.
Qed.

(** Shifting right divides the mantissa. *)
Lemma shr_1_div2 (mrs : shr_record) :
  0 <= shr_m mrs -> shr_m (shr_1 mrs) = shr_m mrs / 2.
Proof.
  destruct mrs as [m r s]; simpl. intros H.
  destruct m as [|p|p]; try lia; [reflexivity|].
  destruct p as [p|p|]; simpl.
  - rewrite Pos2Z.inj_xI. apply Z.div_unique with (r := 1); lia.
  - rewrite Pos2Z.inj_xO. apply Z.div_unique with (r := 0); lia.
  - reflexivity.
Qed.

Lemma pow2_xO (n : positive) : 2 ^ Zpos n~0 = 2 ^ Zpos n * 2 ^ Zpos n.
Proof. rewrite <- Z.pow_add_r by lia. f_equal. lia. Qed.

Lemma pow2_xI (n : positive) : 2 ^ Zpos n~1 = 2 * (2 ^ Zpos n * 2 ^ Zpos n).
Proof.
  rewrite <- Z.pow_add_r, <- Z.pow_succ_r by lia. f_equal. lia.
Qed.

Lemma iter_pos_shr_1_div (n : positive) :
  forall mrs, 0 <= shr_m mrs ->
    shr_m (iter_pos shr_1 n mrs) = shr_m mrs / 2 ^ Zpos n.
Proof.
  induction n as [n IH|n IH|]; intros mrs H; simpl iter_pos.
  - rewrite IH by (apply iter_pos_shr_1_nonneg, shr_1_nonneg, H).
    rewrite IH by (apply shr_1_nonneg, H).
    rewrite shr_1_div2 by exact H.
    assert (P : 0 < 2 ^ Zpos n) by (apply Z.pow_pos_nonneg; lia).
    rewrite pow2_xI, !Z.div_div by lia. reflexivity.
  - rewrite IH by (apply iter_pos_shr_1_nonneg, H).
    rewrite IH by exact H.
    assert (P : 0 < 2 ^ Zpos n) by (apply Z.pow_pos_nonneg; lia).
    rewrite pow2_xO, Z.div_div by lia. reflexivity.
  - rewrite shr_1_div2 by exact H. reflexivity.
Qed.

Lemma emin_le_fexp (x : Z) : emin prec emax <= fexp prec emax x.
Proof. unfold fexp. lia. Qed.

Lemma digits2_lower (p : positive) (k : Z) :
  0 <= k -> 2 ^ k <= Zpos p -> k < Zpos (digits2_pos p).
Proof.
  intros Hk H. pose proof (digits2_bounds p) as [_ B].
  apply (Z.pow_lt_mono_r_iff 2); lia.
Qed.

(** A mantissa above the least subnormal survives the shift to its
    canonical exponent, and that exponent is at least [emin]. *)
Lemma shr_fexp_pos (m e : Z) (l : location) :
  0 < m -> emin prec emax < Zdigits2 m + e ->
  0 < shr_m (fst (shr_fexp prec emax m e l))
  /\ emin prec emax <= snd (shr_fexp prec emax m e l).
Proof.
  intros Hm He. unfold shr_fexp, shr.
  pose proof (emin_le_fexp (Zdigits2 m + e)) as Hf.
  destruct (fexp prec emax (Zdigits2 m + e) - e) as [|n|n] eqn:Hn; simpl;
    rewrite ?shr_record_of_loc_m; try (split; lia).
  rewrite iter_pos_shr_1_div by (rewrite shr_record_of_loc_m; lia).
  rewrite shr_record_of_loc_m. split; [|lia].
  destruct m as [|p|p]; try lia. cbn [Zdigits2] in *.
  pose proof (digits2_bounds p) as [B _].
  assert (Zpos n <= Zpos (digits2_pos p) - 1)
    by (unfold fexp, emin, prec, emax in *; lia).
  assert (2 ^ Zpos n <= 2 ^ (Zpos (digits2_pos p) - 1))
    by (apply Z.pow_le_mono_r; lia).
  apply Z.div_str_pos. split; [apply Z.pow_pos_nonneg; lia|lia].
Qed.

Lemma round_nearest_even_ge (m : Z) (l : location) :
  m <= round_nearest_even m l.
Proof. destruct l as [|[]]; simpl; try lia. destruct (Z.even m); lia. Qed.

Lemma Zdigits2_pos (m : Z) : 0 < m -> 0 < Zdigits2 m.
Proof. destruct m; simpl; lia. Qed.

Lemma binary_round_aux_nonzero (s : bool) (m e : Z) (l : location) :
  0 < m -> emin prec emax < Zdigits2 m + e ->
  F64Order.nonzero_result s (binary_round_aux prec emax s m e l).
Proof.
  intros Hm He. unfold binary_round_aux.
  pose proof (shr_fexp_pos m e l Hm He) as [H1 E1].
  destruct (shr_fexp prec emax m e l) as [mrs' e']. simpl in H1, E1.
  pose proof (round_nearest_even_ge (shr_m mrs') (loc_of_shr_record mrs'))
    as R.
  set (m1 := round_nearest_even (shr_m mrs') (loc_of_shr_record mrs')) in *.
  assert (Hm1 : 0 < m1) by lia.
  pose proof (Zdigits2_pos m1 Hm1) as D1.
  pose proof (shr_fexp_pos m1 e' loc_Exact Hm1 ltac:(lia)) as [H2 E2].
  destruct (shr_fexp prec emax m1 e' loc_Exact) as [mrs'' e''].
  simpl in H2, E2.
  destruct (shr_m mrs'') as [|p|p]; try lia.
  destruct (e'' <=? emax - prec); simpl; auto.
Qed.

Lemma binary_round_nonzero (s : bool) (m : positive) (e : Z) :
  emin prec emax <= e ->
  F64Order.nonzero_result s (binary_round prec emax s m e).
Proof.
  intros He. unfold binary_round.
  pose proof (emin_le_fexp (Zpos (digits2_pos m) + e)) as Hf.
  set (f := fexp prec emax (Zpos (digits2_pos m) + e)) in *.
  assert (Hs : emin prec emax <= snd (shl_align m e f)).
  { unfold shl_align. destruct (f - e); simpl snd; lia. }
  destruct (shl_align m e f) as [mz ez]. simpl snd in Hs.
  apply binary_round_aux_nonzero; [lia|]. cbn [Zdigits2]. lia.
Qed.

Lemma binary_normalize_nonzero (m e : Z) :
  emin prec emax <= e -> m <> 0 ->
  F64Order.nonzero_result (m <? 0) (binary_normalize prec emax m e false).
Proof.
  intros He Hm. destruct m as [|p|p]; [lia| |];
    apply binary_round_nonzero, He.
Qed.

Lemma valid_exponent (s : bool) (m : positive) (e : Z) :
  valid (S754_finite s m e) = true -> emin prec emax <= e.
Proof.
  unfold valid, valid_binary, bounded. intros V.
  apply andb_prop in V as [C _]. unfold canonical_mantissa in C.
  apply Z.eqb_eq in C. pose proof (emin_le_fexp (Zpos (digits2_pos m) + e)).
  lia.
Qed.

Lemma aligned_order_strict (sx sy : bool) (mx my : positive) (ex ey : Z) :
  valid (S754_finite sx mx ex) = true ->
  valid (S754_finite sy my ey) = true ->
  F64Order.ltb (S754_finite sy my ey) (S754_finite sx mx ex) = true ->
  aligned sy my ey (Z.min ex ey) < aligned sx mx ex (Z.min ex ey).
Proof.
  unfold valid, valid_binary, bounded, F64Order.ltb, SFltb, aligned.
  intros Vx Vy L.
  apply andb_prop in Vx as [Cx _]. apply andb_prop in Vy as [Cy _].
  rewrite !shl_align_value by lia.
  assert (Px : 0 < Zpos mx * 2 ^ (ex - Z.min ex ey))
    by (apply Z.mul_pos_pos; [lia|apply Z.pow_pos_nonneg; lia]).
  assert (Py : 0 < Zpos my * 2 ^ (ey - Z.min ex ey))
    by (apply Z.mul_pos_pos; [lia|apply Z.pow_pos_nonneg; lia]).
  simpl in L. unfold cond_Zopp.
  destruct sx, sy; try lia; try discriminate L.
  - destruct (Z.compare_spec ey ex) as [E|E|E]; try discriminate L.
    + subst ey. rewrite Z.min_id, Z.sub_diag, Z.pow_0_r, !Z.mul_1_r.
      fold (Pos.compare my mx) in L.
      destruct (Pos.compare_spec my mx); simpl in L; try discriminate L; lia.
    + pose proof (canonical_exponent_lt _ _ _ _ Cx Cy E).
      replace (Z.min ex ey) with ex by lia.
      rewrite Z.sub_diag, Z.pow_0_r, Z.mul_1_r. lia.
  - destruct (Z.compare_spec ey ex) as [E|E|E]; try discriminate L.
    + subst ey. rewrite Z.min_id, Z.sub_diag, Z.pow_0_r, !Z.mul_1_r.
      fold (Pos.compare my mx) in L.
      destruct (Pos.compare_spec my mx); simpl in L; try discriminate L; lia.
    + pose proof (canonical_exponent_lt _ _ _ _ Cy Cx E).
      replace (Z.min ex ey) with ey by lia.
      rewrite Z.sub_diag, Z.pow_0_r, Z.mul_1_r. lia.
Qed.

(** The difference of two distinct doubles is not zero and carries the
    sign of their order. *)
Lemma sub_nonzero (x y : float) :
  valid x = true -> valid y = true ->
  is_finite x = true -> is_finite y = true ->
  (F64Order.ltb y x = true -> F64Order.nonzero_result false (sub x y))
  /\ (F64Order.ltb x y = true -> F64Order.nonzero_result true (sub x y)).
Proof.
  intros Vx Vy Fx Fy.
  destruct x as [sx|sx| |sx mx ex]; try discriminate Fx;
    destruct y as [sy|sy| |sy my ey]; try discriminate Fy.
  - split; intros L; discriminate L.
  - pose proof (valid_exponent _ _ _ Vy).
    split; intros L; destruct sy; try discriminate L; simpl; auto.
  - pose proof (valid_exponent _ _ _ Vx).
    split; intros L; destruct sx; try discriminate L; simpl; auto.
  - pose proof (valid_exponent _ _ _ Vx). pose proof (valid_exponent _ _ _ Vy).
    unfold sub, SFsub. split; intros L.
    + pose proof (aligned_order_strict _ _ _ _ _ _ Vx Vy L) as A.
      unfold aligned in A.
      match goal with |- context [binary_normalize _ _ ?d ?e _] =>
        pose proof (binary_normalize_nonzero d e ltac:(lia) ltac:(lia)) as N;
        replace (d <? 0) with false in N by (symmetry; apply Z.ltb_ge; lia)
      end.
      exact N.
    + pose proof (aligned_order_strict _ _ _ _ _ _ Vy Vx L) as A.
      unfold aligned in A. rewrite Z.min_comm in A.
      match goal with |- context [binary_normalize _ _ ?d ?e _] =>
        pose proof (binary_normalize_nonzero d e ltac:(lia) ltac:(lia)) as N;
        replace (d <? 0) with true in N by (symmetry; apply Z.ltb_lt; lia)
      end.
      exact N.
Qed.

(** Scaling by a normal double of at least one keeps a product away from
    zero. *)
Lemma mul_nonzero (s : bool) (x : float) (m : positive) (e : Z) :
  2 ^ 52 <= Zpos m -> -52 <= e ->
  F64Order.nonzero_result s x ->
  F64Order.nonzero_result s (mul x (S754_finite false m e)).
Proof.
  intros Hm He H.
  destruct x as [sx|sx| |sx mx ex]; simpl in H; try contradiction.
  - subst sx. simpl. destruct s; reflexivity.
  - destruct H as [-> Hx]. unfold mul, SFmul. rewrite xorb_false_r.
    apply binary_round_aux_nonzero; [lia|]. cbn [Zdigits2].
    assert (2 ^ 52 <= Zpos (mx * m)) by (rewrite Pos2Z.inj_mul; nia).
    pose proof (digits2_lower (mx * m) 52 ltac:(lia) H). lia.
Qed.

Lemma nonzero_result_positive (x : float) :
  F64Order.nonzero_result false x -> F64Order.ltb zero x = true.
Proof.
  destruct x as [s|s| |s m e]; simpl; try contradiction.
  - intros ->. reflexivity.
  - intros [-> _]. reflexivity.
Qed.

Lemma nonzero_result_negative (x : float) :
  F64Order.nonzero_result true x -> F64Order.ltb x zero = true.
Proof.
  destruct x as [s|s| |s m e]; simpl; try contradiction.
  - intros ->. reflexivity.
  - intros [-> _]. reflexivity.
Qed.

End F64OrderFacts.

(** ** The sign of the elapsed time *)

Lemma thousand_normal :
  (2 ^ 52 <= 8796093022208000 /\ -52 <= -43)%Z.
Proof. split; [vm_compute; discriminate|lia]. Qed.

Lemma is_double_inv (x : float) :
  F64.is_double x = true -> F64.valid x = true /\ F64.is_finite x = true.
Proof. unfold F64.is_double. intros H. apply andb_prop in H. exact H. Qed.

(** X1. When the second timestamp is strictly after the first, the elapsed
    milliseconds are strictly positive: neither the subtraction nor the
    scaling by 1000 rounds to zero. *)
Theorem elapsed_ms_positive (start_time end_time : float) :
  F64.is_double start_time = true ->
  F64.is_double end_time = true ->
  F64Order.ltb start_time end_time = true ->
  F64Order.ltb F64.zero (elapsed_ms start_time end_time) = true.
Proof.
  intros Hs He L.
  apply is_double_inv in Hs as [Vs Fs]. apply is_double_inv in He as [Ve Fe].
  unfold elapsed_ms. rewrite of_Z_1000.
  apply F64OrderFacts.nonzero_result_positive.
  destruct thousand_normal as [B1 B2].
  apply F64OrderFacts.mul_nonzero; try assumption.
  apply (F64OrderFacts.sub_nonzero end_time start_time); assumption.
Qed.

(** X2. When the clock went backwards between the two reads, the elapsed
    milliseconds are strictly negative. *)
Theorem elapsed_ms_negative (start_time end_time : float) :
  F64.is_double start_time = true ->
  F64.is_double end_time = true ->
  F64Order.ltb end_time start_time = true ->
  F64Order.ltb (elapsed_ms start_time end_time) F64.zero = true.
Proof.
  intros Hs He L.
  apply is_double_inv in Hs as [Vs Fs]. apply is_double_inv in He as [Ve Fe].
  unfold elapsed_ms. rewrite of_Z_1000.
  apply F64OrderFacts.nonzero_result_negative.
  destruct thousand_normal as [B1 B2].
  apply F64OrderFacts.mul_nonzero; try assumption.
  apply (F64OrderFacts.sub_nonzero end_time start_time); assumption.
Qed.

Lemma elapsed_ms_same (t : float) :
  F64.is_finite t = true -> elapsed_ms t t = F64.zero.
Proof.
  intros F. unfold elapsed_ms. rewrite of_Z_1000.
  destruct t as [s|s| |s m e]; try discriminate F.
  - destruct s; reflexivity.
  - unfold F64.sub, SFsub. rewrite Z.sub_diag. reflexivity.
Qed.

Lemma elapsed_ms_not_nan (start_time end_time : float) :
  F64.is_finite start_time = true ->
  F64.is_finite end_time = true ->
  elapsed_ms start_time end_time <> S754_nan.
Proof.
  intros Fs Fe. unfold elapsed_ms. rewrite of_Z_1000.
  assert (H : exists s, F64Order.has_sign s (F64.sub end_time start_time)).
  { destruct end_time as [sx|sx| |sx mx ex]; try discriminate Fe;
      destruct start_time as [sy|sy| |sy my ey]; try discriminate Fs.
    - destruct sx, sy; eexists; reflexivity.
    - eexists; reflexivity.
    - eexists; reflexivity.
    - unfold F64.sub, SFsub.
      match goal with |- context [binary_normalize _ _ ?d ?e _] =>
        destruct d as [|p|p]; simpl binary_normalize
      end.
      + exists false. reflexivity.
      + exists false. unfold binary_round.
        destruct (shl_align p _ _) as [mz ez].
        apply F64OrderFacts.binary_round_aux_sign. discriminate.
      + exists true. unfold binary_round.
        destruct (shl_align p _ _) as [mz ez].
        apply F64OrderFacts.binary_round_aux_sign. discriminate. }
  destruct H as [s H].
  destruct (F64.sub end_time start_time) as [sx|sx| |sx mx ex];
    simpl in H; try contradiction; try discriminate.
  unfold F64.mul, SFmul. intros N.
  pose proof (F64OrderFacts.binary_round_aux_sign (xorb sx false)
                (Zpos (mx * 8796093022208000)) (ex + -43) loc_Exact
                ltac:(discriminate)) as S.
  rewrite N in S. exact S.
Qed.

(** ** Runs on a stalled clock, and runs that compose *)

Lemma with_timer_message (description : option string)
  (block : World -> Outcome unit * World) (w w2 : World) (u : unit) :
  block (tick w) = (Returned u, w2) ->
  with_timer description block w =
  (let line := timer_message description (elapsed_ms (now w) (now w2)) in
   ([OClock (now w); OClock (now w2); OPrint line],
    (Returned tt, emit line (tick w2)))).
Proof.
  intros Hb. rewrite (with_timer_normal _ _ _ _ _ Hb).
  unfold timer_message. destruct (truthy description); reflexivity.
Qed.

(** X3. When both reads of the clock return the same finite timestamp, the
    decorator returns an elapsed time of exactly [0.0] and the timer prints
    [0.00ms]. *)
Theorem stalled_clock_reports_zero (w w2 : World) :
  F64.is_finite (now w) = true ->
  now w2 = now w ->
  (forall func args kwargs v,
     fn_body func args kwargs (tick w) = (Returned v, w2) ->
     fst (fn_body (time_execution func) args kwargs w)
     = Returned (VTuple [v; VFloat F64.zero]))
  /\ (forall description block u,
     block (tick w) = (Returned u, w2) ->
     prints (fst (with_timer description block w))
     = [if truthy description
        then (str_of description ++ " took 0.00ms")%string
        else "Execution took 0.00ms"%string]).
Proof.
  intros F E. split.
  - intros func args kwargs v Hf.
    unfold time_execution, functools_wraps. cbn [fn_body].
    rewrite run_wrapper, Hf. cbn [snd fst].
    rewrite E, elapsed_ms_same by exact F. reflexivity.
  - intros description block u Hb.
    rewrite (with_timer_normal _ _ _ _ _ Hb).
    rewrite E, elapsed_ms_same by exact F.
    destruct (truthy description); reflexivity.
Qed.

(** X4. For finite timestamps, in either order, the elapsed time the
    decorator returns is a number: the subtraction and the scaling never
    give a NaN. *)
Theorem time_execution_elapsed_is_number
  (func : Callable) (args : list PyVal) (kwargs : Kwargs)
  (w w2 : World) (v : PyVal) :
  fn_body func args kwargs (tick w) = (Returned v, w2) ->
  F64.is_finite (now w) = true ->
  F64.is_finite (now w2) = true ->
  exists elapsed,
    fst (fn_body (time_execution func) args kwargs w)
    = Returned (VTuple [v; VFloat elapsed])
    /\ elapsed <> S754_nan.
Proof.
  intros Hf F0 F1. exists (elapsed_ms (now w) (now w2)). split.
  - unfold time_execution, functools_wraps. cbn [fn_body].
    rewrite run_wrapper, Hf. reflexivity.
  - apply elapsed_ms_not_nan; assumption.
Qed.

Section Composition.

Variable func : Callable.
Variable args : list PyVal.
Variable kwargs : Kwargs.
Variable block : World -> Outcome unit * World.
Variable w : World.

(** X5. A function decorated twice returns a pair of a pair: the inner
    elapsed time is taken between the second and third read of the clock,
    the outer one between the first and the fourth; an exception of the
    function passes through both wrappers, and a function that has a name
    keeps it. *)
Theorem time_execution_twice :
  (forall v w2,
     fn_body func args kwargs (tick (tick w)) = (Returned v, w2) ->
     fn_body (time_execution (time_execution func)) args kwargs w
     = (Returned
          (VTuple [VTuple [v; VFloat (elapsed_ms (now (tick w)) (now w2))];
                   VFloat (elapsed_ms (now w) (now (tick w2)))]),
        tick (tick w2)))
  /\ (forall e w2,
     fn_body func args kwargs (tick (tick w)) = (Raised e, w2) ->
     fn_body (time_execution (time_execution func)) args kwargs w
     = (Raised e, w2))
  /\ (fn_name func <> None ->
      fn_name (time_execution (time_execution func)) = fn_name func).
Proof.
  split; [|split];
    [| |unfold time_execution, functools_wraps, assign_attr; cbn [fn_name];
        destruct (fn_name func) as [n|];
          [reflexivity|intros H; now elim H]].
  - intros v w2 Hf.
    unfold time_execution at 1. unfold functools_wraps. cbn [fn_body].
    rewrite run_wrapper.
    unfold time_execution, functools_wraps. cbn [fn_body].
    rewrite run_wrapper, Hf. reflexivity.
  - intros e w2 Hf.
    unfold time_execution at 1. unfold functools_wraps. cbn [fn_body].
    rewrite run_wrapper.
    unfold time_execution, functools_wraps. cbn [fn_body].
    rewrite run_wrapper, Hf. reflexivity.
Qed.

(** X6. Of two nested timers the inner one prints first, right after the
    output of the block, and the outer one next; when the block raises,
    the exception leaves both and neither prints. *)
Theorem nested_timers (outer inner : option string) :
  (forall u w2,
     block (tick (tick w)) = (Returned u, w2) ->
     fst (snd (with_timer outer (timed_block inner block) w)) = Returned tt
     /\ stdout (snd (snd (with_timer outer (timed_block inner block) w)))
        = stdout w2
          ++ [timer_message inner (elapsed_ms (now (tick w)) (now w2));
              timer_message outer (elapsed_ms (now w) (now (tick w2)))])
  /\ (forall e w2,
     block (tick (tick w)) = (Raised e, w2) ->
     snd (with_timer outer (timed_block inner block) w) = (Raised e, w2)).
Proof.
  split.
  - intros u w2 Hb.
    assert (Hi : timed_block inner block (tick w)
                 = (Returned tt,
                    emit (timer_message inner
                            (elapsed_ms (now (tick w)) (now w2)))
                         (tick w2))).
    { unfold timed_block. rewrite (with_timer_message _ _ _ _ _ Hb).
      reflexivity. }
    rewrite (with_timer_message _ _ _ _ _ Hi). cbn [fst snd].
    split; [reflexivity|]. cbn [stdout emit tick].
    rewrite <- app_assoc. reflexivity.
  - intros e w2 Hb.
    assert (Hi : timed_block inner block (tick w) = (Raised e, w2)).
    { unfold timed_block. rewrite (with_timer_raised _ _ _ _ _ Hb).
      reflexivity. }
    rewrite (with_timer_raised _ _ _ _ _ Hi). reflexivity.
Qed.

(** X7. The [with timer(...)] statement ends the way its block ends: it
    raises nothing of its own and swallows nothing. *)
Theorem timer_outcome_is_block_outcome (description : option string) :
  fst (snd (with_timer description block w)) = fst (block (tick w)).
Proof.
  destruct (block (tick w)) as [[u|e] w2] eqn:Hb.
  - rewrite (with_timer_message _ _ _ _ _ Hb). destruct u. reflexivity.
  - rewrite (with_timer_raised _ _ _ _ _ Hb). reflexivity.
Qed.

(** X8. The description changes the text that is printed and nothing
    else: the clock reads, the outcome, the number of [print] calls that
    reached standard output and the position of the clock are the same
    for any two descriptions. *)
Theorem timer_description_changes_text_only (d d' : option string) :
  clock_reads (fst (with_timer d block w))
  = clock_reads (fst (with_timer d' block w))
  /\ fst (snd (with_timer d block w)) = fst (snd (with_timer d' block w))
  /\ reads (snd (snd (with_timer d block w)))
     = reads (snd (snd (with_timer d' block w)))
  /\ List.length (stdout (snd (snd (with_timer d block w))))
     = List.length (stdout (snd (snd (with_timer d' block w)))).
Proof.
  destruct (block (tick w)) as [[u|e] w2] eqn:Hb.
  - rewrite !(with_timer_message _ _ _ _ _ Hb). cbn [fst snd stdout emit].
    rewrite !List.length_app. repeat split.
  - rewrite !(with_timer_raised _ _ _ _ _ Hb). repeat split.
Qed.

(** X9. The decorator writes nothing: the wrapper performs no print, and
    standard output after the decorated call is what the function left. *)
Theorem time_execution_prints_nothing :
  prints (fst (run (wrapper func args kwargs) w)) = []
  /\ stdout (snd (fn_body (time_execution func) args kwargs w))
     = stdout (snd (fn_body func args kwargs (tick w))).
Proof.
  unfold time_execution, functools_wraps. cbn [fn_body].
  rewrite run_wrapper.
  destruct (fn_body func args kwargs (tick w)) as [[v|e] w2];
    split; reflexivity.
Qed.

(** X10. Whatever the decorated call returns is a pair that unpacks into
    the value the function returned and a float; and it raises only what
    the function raised. *)
Theorem time_execution_result_unpacks :
  (forall r w',
     fn_body (time_execution func) args kwargs w = (Returned r, w') ->
     exists v w2,
       fn_body func args kwargs (tick w) = (Returned v, w2)
       /\ r = VTuple [v; VFloat (elapsed_ms (now w) (now w2))]
       /\ w' = tick w2)
  /\ (forall e w',
     fn_body (time_execution func) args kwargs w = (Raised e, w') ->
     fn_body func args kwargs (tick w) = (Raised e, w')).
Proof.
  unfold time_execution, functools_wraps. cbn [fn_body].
  rewrite run_wrapper.
  destruct (fn_body func args kwargs (tick w)) as [[v|e] w2]; cbn [snd];
    split; intros x w' H; try discriminate H; injection H as <- <-.
  - exists v, w2. repeat split.
  - reflexivity.
Qed.

End Composition.

(** ** The shape of the printed line *)

Lemma string_app_assoc (a b c : string) :
  ((a ++ b) ++ c = a ++ b ++ c)%string.
Proof. induction a as [|x a IH]; simpl; [reflexivity|now rewrite IH]. Qed.

(** X11. When the elapsed time is finite, the line the timer prints ends
    with a point, two decimal digits and [ms]. *)
Theorem timer_line_has_two_decimals (description : option string)
  (block : World -> Outcome unit * World) (w w2 : World) (u : unit) :
  block (tick w) = (Returned u, w2) ->
  F64.is_finite (elapsed_ms (now w) (now w2)) = true ->
  exists (head : string) (d1 d2 : Z),
    prints (fst (with_timer description block w))
    = [(head ++ "."
        ++ String (Format.digit d1) (String (Format.digit d2) "ms"))%string]
    /\ (0 <= d1 < 10)%Z /\ (0 <= d2 < 10)%Z.
Proof.
  intros Hb F.
  destruct (FormatFacts.format_2f_two_decimals _ F)
    as (ip & d1 & d2 & E & B1 & B2).
  rewrite (with_timer_message _ _ _ _ _ Hb). cbn [fst prints flat_map app].
  unfold timer_message. rewrite E.
  destruct (truthy description).
  - exists (str_of description ++ " took " ++ ip)%string, d1, d2.
    split; [|split; assumption]. f_equal.
    rewrite !string_app_assoc. reflexivity.
  - exists ("Execution took " ++ ip)%string, d1, d2.
    split; [|split; assumption]. f_equal.
    rewrite !string_app_assoc. reflexivity.
Qed.

(** * Further concrete runs *)

Section MoreRuns.
Import Examples MoreExamples.

Lemma elapsed_ms_positive_witness :
  F64Order.ltb F64.zero (elapsed_ms (now w0) (now (tick w0))) = true.
Proof.
  apply (elapsed_ms_positive (now w0) (now (tick w0)));
    vm_compute; reflexivity.
Defined.

Lemma elapsed_ms_negative_witness :
  F64Order.ltb (elapsed_ms (now backwards) (now (tick backwards))) F64.zero
  = true.
Proof.
  apply (elapsed_ms_negative (now backwards) (now (tick backwards)));
    vm_compute; reflexivity.
Defined.

Lemma stalled_clock_reports_zero_witness :
  fst (fn_body (time_execution my_function) [VInt 5] [] stalled)
  = Returned (VTuple [VInt 10; VFloat F64.zero])
  /\ prints (fst (with_timer (Some "load") noop_block stalled))
     = ["load took 0.00ms"].
Proof.
  assert (F : F64.is_finite (now stalled) = true) by (vm_compute; reflexivity).
  destruct (stalled_clock_reports_zero stalled (tick stalled) F eq_refl)
    as [Hd Ht].
  split.
  - apply (Hd my_function [VInt 5] [] (VInt 10)). reflexivity.
  - apply (Ht (Some "load") noop_block tt). reflexivity.
Defined.

Lemma time_execution_elapsed_is_number_witness :
  exists elapsed,
    fst (fn_body (time_execution my_function) [VInt 5] [] w0)
    = Returned (VTuple [VInt 10; VFloat elapsed])
    /\ elapsed <> S754_nan.
Proof.
  apply (time_execution_elapsed_is_number my_function [VInt 5] [] w0
           (tick w0) (VInt 10)); vm_compute; reflexivity.
Defined.

Lemma time_execution_twice_witness :
  fn_body (time_execution (time_execution my_function)) [VInt 5] [] w0
  = (Returned (VTuple [VTuple [VInt 10; VFloat (F64.of_Z 1000)];
                       VFloat (F64.of_Z 3000)]),
     tick (tick (tick (tick w0))))
  /\ fn_body (time_execution (time_execution failing)) [] [] w0
     = (Raised ValueError, tick (tick w0))
  /\ fn_name (time_execution (time_execution my_function))
     = Some "my_function".
Proof.
  split; [|split].
  - apply (proj1 (time_execution_twice my_function [VInt 5] [] w0)
             (VInt 10) (tick (tick w0))).
    reflexivity.
  - apply (proj1 (proj2 (time_execution_twice failing [] [] w0))
             ValueError (tick (tick w0))).
    reflexivity.
  - apply (proj2 (proj2 (time_execution_twice my_function [VInt 5] [] w0))).
    discriminate.
Defined.

Lemma nested_timers_witness :
  stdout (snd (snd (with_timer (Some "outer")
                      (timed_block None printing_block) w0)))
  = ["working"; "Execution took 1000.00ms"; "outer took 3000.00ms"]
  /\ snd (with_timer (Some "outer") (timed_block None failing_block) w0)
     = (Raised ValueError, tick (tick w0)).
Proof.
  split.
  - apply (proj1 (nested_timers printing_block w0 (Some "outer") None)
             tt (emit "working" (tick (tick w0)))).
    reflexivity.
  - apply (proj2 (nested_timers failing_block w0 (Some "outer") None)
             ValueError (tick (tick w0))).
    reflexivity.
Defined.

Lemma time_execution_result_unpacks_witness :
  exists v w2,
    fn_body my_function [VInt 5] [] (tick w0) = (Returned v, w2)
    /\ VTuple [VInt 10; VFloat (F64.of_Z 1000)]
       = VTuple [v; VFloat (elapsed_ms (now w0) (now w2))]
    /\ tick (tick w0) = tick w2.
Proof.
  apply (proj1 (time_execution_result_unpacks my_function [VInt 5] [] w0)).
  reflexivity.
Defined.

Lemma timer_line_has_two_decimals_witness :
  exists (head : string) (d1 d2 : Z),
    prints (fst (with_timer (Some "load") noop_block w0))
    = [(head ++ "."
        ++ String (Format.digit d1) (String (Format.digit d2) "ms"))%string]
    /\ (0 <= d1 < 10)%Z /\ (0 <= d2 < 10)%Z.
Proof.
  apply (timer_line_has_two_decimals (Some "load") noop_block w0
           (tick w0) tt); vm_compute; reflexivity.
Defined.

End MoreRuns.
